(** * linkurious: a shallow embedding of [linkurious/__init__.py]

    The module is one class, [Linkurious], whose methods each build the
    arguments of one HTTP call (verb, path parts, [params] dict, [data] dict),
    hand them to a [tortilla] wrapper and return what the wrapper returns.
    Only [authenticate] writes a field of the object.

    The embedding keeps the three layers of the source apart:
    - [Py]: the Python values that travel through the calls (JSON-like
      values, insertion-ordered dicts, truthiness, [in], attribute access);
    - the [tortilla] wrapper, an external collaborator, as an oracle [send]
      over an opaque session state;
    - the methods of the class, written in a state-and-exception monad over
      the object's fields, the session and the log of the requests issued. *)

From Stdlib Require Import String List ZArith Bool DecimalString DecimalZ.
Import ListNotations.
Open Scope string_scope.
Set Warnings "-register-all".

(* ================================================================= *)
(** ** Python values *)

Module Py.

(** The values the methods receive and forward: [None], booleans, integers,
    strings, lists and dicts.  A dict is an association list in insertion
    order, which is the order Python keeps.  Floats are not modelled; no
    method inspects one. *)
Inductive PyVal : Type :=
| PNone
| PBool (b : bool)
| PInt (z : Z)
| PStr (s : string)
| PList (l : list PyVal)
| PDict (d : list (string * PyVal)).

Definition Dict : Type := list (string * PyVal).

(** [d.get(k)] as an option; [k in d]. *)
Fixpoint dict_get (k : string) (d : Dict) : option PyVal :=
  match d with
  | [] => None
  | (k', v) :: d' => if String.eqb k k' then Some v else dict_get k d'
  end.

Definition dict_has (k : string) (d : Dict) : bool :=
  match dict_get k d with Some _ => true | None => false end.

(** [d[k] = v]: an existing key keeps its place, a new key goes last. *)
Fixpoint dict_set (k : string) (v : PyVal) (d : Dict) : Dict :=
  match d with
  | [] => [(k, v)]
  | (k', v') :: d' =>
      if String.eqb k k' then (k, v) :: d' else (k', v') :: dict_set k v d'
  end.

(** [if c: d[k] = v], the shape of every guarded field of the class. *)
Definition set_if (c : bool) (k : string) (v : PyVal) (d : Dict) : Dict :=
  if c then dict_set k v d else d.

(** Truthiness, as [if x:] tests it. *)
Definition truthy (v : PyVal) : bool :=
  match v with
  | PNone => false
  | PBool b => b
  | PInt z => negb (Z.eqb z 0)
  | PStr s => negb (String.eqb s "")
  | PList l => match l with [] => false | _ => true end
  | PDict d => match d with [] => false | _ => true end
  end.

(** An argument annotated [Optional[str]]. *)
Definition of_opt (o : option string) : PyVal :=
  match o with Some s => PStr s | None => PNone end.

(** [v == s] for a string [s]: only an equal string is equal to it. *)
Definition eq_str (v : PyVal) (s : string) : bool :=
  match v with PStr t => String.eqb t s | _ => false end.

(** [s in t] on two strings. *)
Definition substring_of (s t : string) : bool :=
  match String.index 0 s t with Some _ => true | None => false end.

(** [str(n)] for an integer, as an f-string interpolates it. *)
Definition str_int (z : Z) : string := NilZero.string_of_int (Z.to_int z).

(** The exceptions that can leave a method.  The message of a
    [LinkuriousException] is kept as the parts of its f-string: literal text
    and the values interpolated into it. *)
Inductive FPart : Type :=
| Lit (s : string)
| Fmt (v : PyVal).

Inductive Exn : Type :=
| LinkuriousException (msg : list FPart)
| AttributeError (name : string)
| TypeError
| TransportError (what : string).

Inductive Result (A : Type) : Type :=
| Return (a : A)
| Raise (e : Exn).
Arguments Return {A} a.
Arguments Raise {A} e.

(** [k in v]: key membership on a dict, element membership on a list,
    substring on a string; anything else is not iterable. *)
Definition contains (k : string) (v : PyVal) : Result bool :=
  match v with
  | PDict d => Return (dict_has k d)
  | PList l => Return (existsb (fun x => eq_str x k) l)
  | PStr s => Return (substring_of k s)
  | _ => Raise TypeError
  end.

(** [v.name] on a parsed response: tortilla returns JSON objects as bunches,
    dicts whose keys read as attributes; a missing key, or a value that is
    not a bunch, has no such attribute. *)
Definition getattr (v : PyVal) (name : string) : Result PyVal :=
  match v with
  | PDict d =>
      match dict_get name d with
      | Some x => Return x
      | None => Raise (AttributeError name)
      end
  | _ => Raise (AttributeError name)
  end.

End Py.
Import Py.

(* ================================================================= *)
(** ** The tortilla wrapper *)

Inductive Verb : Type := GET | POST | PATCH | PUT | DELETE.

(** What one call hands to the transport. *)
Record Request : Type := mkRequest {
  verb : Verb;
  base : string;
  parts : list string;
  params : option Dict;
  data : option Dict
}.

(** The path below the base URL. *)
Definition path (r : Request) : string := String.concat "/" (parts r).

(** [tortilla.wrap(url, debug=...)] yields the root wrapper; following
    attributes from it ([w.admin.applications]) yields wrappers that remember
    the chain of names. *)
Record Root : Type := mkRoot {
  url : string;
  debug : bool
}.

Record Wrap : Type := mkWrap {
  root : Root;
  chain : list string
}.

Definition wrap (u : string) (dbg : bool) : Root :=
  {| url := u; debug := dbg |}.

Definition top (r : Root) : Wrap := {| root := r; chain := [] |}.
Coercion top : Root >-> Wrap.

Definition attr (w : Wrap) (name : string) : Wrap :=
  {| root := root w; chain := chain w ++ [name] |}.

Notation "w ./ name" := (attr w name) (at level 40, left associativity).

(** The request a verb method of a wrapper builds from its positional
    parts and its [params] and [data] keywords. *)
Definition request_of (v : Verb) (w : Wrap) (args : list string)
    (ps ds : option Dict) : Request :=
  {| verb := v; base := url (root w); parts := chain w ++ args;
     params := ps; data := ds |}.

(* ================================================================= *)
(** ** The class *)

(** The fields of an instance once [__init__] has bound [_wrapper] to the
    root wrapper of [host/api]. *)
Record Linkurious : Type := mkLinkurious {
  _wrapper : Root;
  authenticated : bool
}.

Section Methods.

(** The HTTP session behind the wrapper (cookies, cache) is opaque; [send]
    performs one call on it and yields the parsed body or the text of the
    error the transport raises. *)
Context {Session : Type}.
Variable send : Request -> Session -> (PyVal + string) * Session.

Record World : Type := mkWorld {
  self : Linkurious;
  net : Session;
  sent : list Request
}.

Definition M (A : Type) : Type := World -> Result A * World.

Definition ret {A} (a : A) : M A := fun st => (Return a, st).

Definition raise {A} (e : Exn) : M A := fun st => (Raise e, st).

Definition bind {A B} (m : M A) (k : A -> M B) : M B :=
  fun st =>
    match m st with
    | (Return a, st') => k a st'
    | (Raise e, st') => (Raise e, st')
    end.

Notation "x <- m ;; k" := (bind m (fun x => k))
  (at level 61, m at next level, right associativity).

(** Lifting the outcome of a pure Python operation. *)
Definition lift {A} (r : Result A) : M A := fun st => (r, st).

(** [self._wrapper] *)
Definition get__wrapper : M Root := fun st => (Return (_wrapper (self st)), st).

(** [self.authenticated = b] *)
Definition set_authenticated (b : bool) : M unit :=
  fun st =>
    (Return tt,
     {| self := {| _wrapper := _wrapper (self st); authenticated := b |};
        net := net st; sent := sent st |}).

(** One call through the wrapper: the request is logged, the session moves
    on, and the body comes back or the transport's error is raised. *)
Definition call (v : Verb) (w : Wrap) (args : list string)
    (ps ds : option Dict) : M PyVal :=
  fun st =>
    let r := request_of v w args ps ds in
    let (out, n') := send r (net st) in
    (match out with
     | inl body => Return body
     | inr e => Raise (TransportError e)
     end,
     {| self := self st; net := n'; sent := sent st ++ [r] |}).

(** [authenticate(self, username, password=None, apikey=None)] *)
Definition authenticate (username : string) (password apikey : option string)
    : M unit :=
  if truthy (PStr username) && truthy (of_opt password) then
    w <- get__wrapper ;;
    res <- call POST (w ./ "auth" ./ "login") [] None
             (Some [("usernameOrEmail", PStr username);
                    ("password", of_opt password)]) ;;
    has <- lift (contains "email" res) ;;
    ok <- (if has
           then (e <- lift (getattr res "email") ;; ret (eq_str e username))
           else ret false) ;;
    if ok then set_authenticated true
    else
      reason <- lift (getattr res "reason") ;;
      raise (LinkuriousException [Lit "could not authenticate "; Fmt reason])
  else if truthy (PStr username) && truthy (of_opt apikey) then
    raise (LinkuriousException [Lit "apikey authentication not yet implemented"])
  else
    raise (LinkuriousException
             [Lit "could not authenticate without password or apikey"]).

(** [get_wrapper(self)] *)
Definition get_wrapper : M Root := get__wrapper.

(** [status(self)] *)
Definition status : M PyVal :=
  w <- get_wrapper ;; call GET (w ./ "status") [] None None.

(** [version(self)] *)
Definition version : M PyVal :=
  w <- get_wrapper ;; call GET (w ./ "version") [] None None.

(** [get_custom_files(self, root=None, extensions=None)] *)
Definition get_custom_files (root extensions : PyVal) : M PyVal :=
  w <- get_wrapper ;;
  call GET (w ./ "customFiles") []
    (Some [("root", root); ("extensions", extensions)]) None.

(** [get_sources_status(self, with_styles=False, with_captions=False)];
    a true flag is rebound to [1] before the dict is built. *)
Definition get_sources_status (with_styles with_captions : PyVal) : M PyVal :=
  let with_styles := if truthy with_styles then PInt 1 else with_styles in
  let with_captions := if truthy with_captions then PInt 1 else with_captions in
  w <- get_wrapper ;;
  call GET (w ./ "dataSources") []
    (Some [("with_styles", with_styles); ("with_captions", with_captions)])
    None.

(** [get_sources_info(self)] *)
Definition get_sources_info : M PyVal :=
  w <- get_wrapper ;; call GET (w ./ "admin" ./ "sources") [] None None.

(** [get_config(self, source_index=0)] *)
Definition get_config (source_index : PyVal) : M PyVal :=
  w <- get_wrapper ;;
  call GET w ["config"] (Some [("sourceIndex", source_index)]) None.

(** [update_config(self, source_index=0, path=None,
                   configuration_value=None, reset=False)] *)
Definition update_config (source_index path configuration_value reset : PyVal)
    : M PyVal :=
  let data := [("sourceIndex", source_index); ("reset", reset)] in
  let data := set_if (truthy path) "path" path data in
  let data :=
    set_if (truthy configuration_value) "configuration" configuration_value
      data in
  w <- get_wrapper ;;
  call POST w ["config"] None (Some data).

(** [get_applications(self)] *)
Definition get_applications : M PyVal :=
  w <- get_wrapper ;; call GET (w ./ "admin" ./ "applications") [] None None.

(** [create_application(self, name, groups, rights, enabled=True)] *)
Definition create_application (name groups rights enabled : PyVal) : M PyVal :=
  w <- get_wrapper ;;
  call POST (w ./ "admin" ./ "applications") [] None
    (Some [("name", name); ("groups", groups); ("rights", rights);
           ("enabled", enabled)]).

(** [update_application(self, id, name=None, enabled=True, groups=None,
                        rights=None)]; the call is a [post] on
    [admin.applications]. *)
Definition update_application (id name enabled groups rights : PyVal)
    : M PyVal :=
  let data := [("id", id); ("enabled", enabled)] in
  let data := set_if (truthy groups) "groups" groups data in
  let data := set_if (truthy rights) "rights" rights data in
  let data := set_if (truthy name) "name" name data in
  w <- get_wrapper ;;
  call POST (w ./ "admin" ./ "applications") [] None (Some data).

(** [run_cypher_query(self, sourcekey, query, with_digest=False,
                      with_degree=False)] *)
Definition run_cypher_query (sourcekey : string)
    (query with_digest with_degree : PyVal) : M PyVal :=
  w <- get_wrapper ;;
  call POST w [sourcekey ++ "/graph/run/query"] None
    (Some [("query", query); ("dialect", PStr "cypher");
           ("withDigest", with_digest); ("withDegree", with_degree)]).

(** [get_visualizations_tree(self, sourcekey)] *)
Definition get_visualizations_tree (sourcekey : string) : M PyVal :=
  w <- get_wrapper ;;
  call GET w [sourcekey ++ "/visualizations/tree"] None None.

(** [get_visualization(self, sourcekey, id, with_digest=False,
                       with_degree=False)] *)
Definition get_visualization (sourcekey : string) (id : Z)
    (with_digest with_degree : PyVal) : M PyVal :=
  w <- get_wrapper ;;
  call GET w [sourcekey ++ "/visualizations/" ++ str_int id]
    (Some [("withDigest", with_digest); ("withDegree", with_degree)]) None.

(** [create_visualization(self, sourcekey, title, nodes, edges)] *)
Definition create_visualization (sourcekey : string)
    (title nodes edges : PyVal) : M PyVal :=
  w <- get_wrapper ;;
  call POST w [sourcekey ++ "/visualizations"] None
    (Some [("title", title);
           ("layout",
            PDict [("algorithm", PStr "force"); ("mode", PStr "fast")]);
           ("nodes", nodes);
           ("edges", edges);
           ("alternativeIds",
            PDict [("node", PStr "id"); ("edge", PStr "id")])]).

(** [update_visualization(self, sourcekey, id, visualization=None,
                          force_lock=False, do_layout=False)];
    [visualization] is tested with [is None], the two flags with [if]. *)
Definition update_visualization (sourcekey : string) (id : Z)
    (visualization force_lock do_layout : PyVal) : M PyVal :=
  let data := [] in
  let visualization :=
    match visualization with PNone => PDict [] | _ => visualization end in
  let data := dict_set "visualization" visualization data in
  let data := set_if (truthy force_lock) "forceLock" (PBool true) data in
  let data := set_if (truthy do_layout) "doLayout" (PBool true) data in
  w <- get_wrapper ;;
  call PATCH w [sourcekey ++ "/visualizations/" ++ str_int id] None
    (Some data).

(** [delete_visualization(self, sourcekey, id)] *)
Definition delete_visualization (sourcekey : string) (id : Z) : M PyVal :=
  w <- get_wrapper ;;
  call DELETE w [sourcekey ++ "/visualizations/" ++ str_int id] None None.

(** [get_visualization_share_rights(self, sourcekey, id)] *)
Definition get_visualization_share_rights (sourcekey : string) (id : Z)
    : M PyVal :=
  w <- get_wrapper ;;
  call GET w [sourcekey ++ "/visualizations/" ++ str_int id ++ "/shares"]
    None None.

(** [share_visualization(self, sourcekey, id, user_id, right)] *)
Definition share_visualization (sourcekey : string) (id user_id : Z)
    (right : PyVal) : M PyVal :=
  w <- get_wrapper ;;
  call PUT w
    [sourcekey ++ "/visualizations/" ++ str_int id ++ "/share/"
       ++ str_int user_id]
    None (Some [("right", right)]).

(** [unshare_visualization(self, sourcekey, id, user_id)] *)
Definition unshare_visualization (sourcekey : string) (id user_id : Z)
    : M PyVal :=
  w <- get_wrapper ;;
  call DELETE w
    [sourcekey ++ "/visualizations/" ++ str_int id ++ "/share/"
       ++ str_int user_id]
    None None.

(** [get_users(self, starts_with=None, contains=None, group_id=None,
               limit=None, offset=None, sort_by=None, sort_direction=None)] *)
Definition get_users
    (starts_with contains group_id limit offset sort_by sort_direction : PyVal)
    : M PyVal :=
  let params := [] in
  let params := set_if (truthy starts_with) "starts_with" starts_with params in
  let params := set_if (truthy contains) "contains" contains params in
  let params := set_if (truthy group_id) "group_id" group_id params in
  let params := set_if (truthy limit) "limit" limit params in
  let params := set_if (truthy offset) "offset" offset params in
  let params := set_if (truthy sort_by) "sort_by" sort_by params in
  let params :=
    set_if (truthy sort_direction) "sort_direction" sort_direction params in
  w <- get_wrapper ;;
  call GET (w ./ "users") [] (Some params) None.

(** [get_groups(self, sourcekey)] *)
Definition get_groups (sourcekey : string) : M PyVal :=
  w <- get_wrapper ;;
  call GET (w ./ "admin") [sourcekey ++ "/groups"] None None.

(** The object [__init__] works on once it has bound [_wrapper]:
    [authenticated] still has the class default. *)
Definition new_object (host : string) (debug : bool) : Linkurious :=
  {| _wrapper := wrap (host ++ "/api") debug; authenticated := false |}.

(** [__init__(self, host, username=None, password=None, apikey=None,
                 debug=False)]: binds the wrapper, then authenticates when
    [username] is truthy.  The run starts from the session [n] with an empty
    log. *)
Definition __init__ (host : string) (username password apikey : option string)
    (debug : bool) (n : Session) : Result unit * World :=
  let st := {| self := new_object host debug; net := n; sent := [] |} in
  if truthy (of_opt username) then
    match username with
    | Some u => authenticate u password apikey st
    | None => (Return tt, st)
    end
  else (Return tt, st).

(** What the caller of [Linkurious(...)] holds afterwards: the object, or
    the exception that left [__init__]. *)
Definition constructed (r : Result unit * World) : Result Linkurious :=
  match fst r with
  | Return _ => Return (self (snd r))
  | Raise e => Raise e
  end.

End Methods.

Notation "x <- m ;; k" := (bind m (fun x => k))
  (at level 61, m at next level, right associativity).

(* ================================================================= *)
(** ** Observing a call *)

(** The requests a computation issues when run from [st]: what it appends
    to the log. *)
Definition requests {Session A} (m : @M Session A) (st : World)
    : list Request :=
  skipn (length (sent st)) (sent (snd (m st))).

(** The value under [k] in the query-parameter mapping, in the body. *)
Definition param (k : string) (r : Request) : option PyVal :=
  match params r with Some d => dict_get k d | None => None end.

Definition field (k : string) (r : Request) : option PyVal :=
  match data r with Some d => dict_get k d | None => None end.

(** The login request of [authenticate] on an object whose wrapper is [w]. *)
Definition login_request (w : Root) (username : string)
    (password : option string) : Request :=
  {| verb := POST; base := url w; parts := ["auth"; "login"];
     params := None;
     data := Some [("usernameOrEmail", PStr username);
                   ("password", of_opt password)] |}.

(** The one request a computation issues has no key [k] in the mapping
    [sel] ([param] or [field]); it has [k] bound to [x]. *)
Definition absent {Session A} (sel : string -> Request -> option PyVal)
    (k : string) (m : @M Session A) : Prop :=
  forall st, map (sel k) (requests m st) = [None].

Definition carries {Session A} (sel : string -> Request -> option PyVal)
    (k : string) (x : PyVal) (m : @M Session A) : Prop :=
  forall st, map (sel k) (requests m st) = [Some x].

(** [m] behaves as [m0] does, and its one request has no key [k]. *)
Definition omitted_as {Session A} (sel : string -> Request -> option PyVal)
    (k : string) (m m0 : @M Session A) : Prop :=
  (forall st, m st = m0 st) /\ absent sel k m.

(** A computation that leaves the fields of the object as they were. *)
Definition keeps_self {Session A} (m : @M Session A) : Prop :=
  forall st, self (snd (m st)) = self st.

(** A transport without session state that answers every call with the
    same parsed body; used to run the methods on concrete inputs. *)
Definition answering (body : PyVal) (r : Request) (n : unit)
    : (PyVal + string) * unit :=
  (inl body, n).

(** An object just built for [host], before any call, on that transport. *)
Definition fresh (host : string) : @World unit :=
  {| self := new_object host false; net := tt; sent := [] |}.

(** The same world with the [authenticated] field set to [b]. *)
Definition with_flag {Session} (b : bool) (st : @World Session) : World :=
  {| self := {| _wrapper := _wrapper (self st); authenticated := b |};
     net := net st; sent := sent st |}.

(** What the caller of a wrapper's verb method gets for the transport's
    outcome. *)
Definition answer (out : PyVal + string) : Result PyVal :=
  match out with
  | inl body => Return body
  | inr e => Raise (TransportError e)
  end.

(** [m] makes exactly one call: the request is a function of the object's
    wrapper alone and goes to its base URL, the caller gets the transport's
    answer as it is, and nothing but the session and the log moves. *)
Definition single_call {Session}
    (send : Request -> Session -> (PyVal + string) * Session)
    (m : @M Session PyVal) : Prop :=
  exists f : Root -> Request,
    (forall w, base (f w) = url w) /\
    forall st,
      m st =
      (answer (fst (send (f (_wrapper (self st))) (net st))),
       {| self := self st;
          net := snd (send (f (_wrapper (self st))) (net st));
          sent := sent st ++ [f (_wrapper (self st))] |}).

(** The outcome, the session and the log of [m] do not depend on the
    [authenticated] field it starts with. *)
Definition ignores_flag {Session A} (m : @M Session A) : Prop :=
  forall st b,
    fst (m (with_flag b st)) = fst (m st)
    /\ net (snd (m (with_flag b st))) = net (snd (m st))
    /\ sent (snd (m (with_flag b st))) = sent (snd (m st)).

(** The payload a request may carry, by verb: a GET has no body, a DELETE
    has neither body nor query parameters, the others have no query
    parameters. *)
Definition well_shaped (r : Request) : Prop :=
  match verb r with
  | GET => data r = None
  | DELETE => params r = None /\ data r = None
  | _ => params r = None
  end.

Definition payload_by_verb {Session A} (m : @M Session A) : Prop :=
  forall st, Forall well_shaped (requests m st).

(** [P] holds of every endpoint method of the class, for all arguments. *)
Definition every_endpoint {Session}
    (send : Request -> Session -> (PyVal + string) * Session)
    (P : @M Session PyVal -> Prop) : Prop :=
  P (status send)
  /\ P (version send)
  /\ (forall ro ext, P (get_custom_files send ro ext))
  /\ (forall ws wc, P (get_sources_status send ws wc))
  /\ P (get_sources_info send)
  /\ (forall si, P (get_config send si))
  /\ (forall si pa cv r, P (update_config send si pa cv r))
  /\ P (get_applications send)
  /\ (forall na g r en, P (create_application send na g r en))
  /\ (forall id na en g r, P (update_application send id na en g r))
  /\ (forall sk q wd wg, P (run_cypher_query send sk q wd wg))
  /\ (forall sk, P (get_visualizations_tree send sk))
  /\ (forall sk id wd wg, P (get_visualization send sk id wd wg))
  /\ (forall sk t ns es, P (create_visualization send sk t ns es))
  /\ (forall sk id vi fl dl, P (update_visualization send sk id vi fl dl))
  /\ (forall sk id, P (delete_visualization send sk id))
  /\ (forall sk id, P (get_visualization_share_rights send sk id))
  /\ (forall sk id uid r, P (share_visualization send sk id uid r))
  /\ (forall sk id uid, P (unshare_visualization send sk id uid))
  /\ (forall sw c g l o sb sd, P (get_users send sw c g l o sb sd))
  /\ (forall sk, P (get_groups send sk)).

(** A transport on which every call fails with the error [e]. *)
Definition failing (e : string) (r : Request) (n : unit)
    : (PyVal + string) * unit :=
  (inr e, n).

Create HintDb frame.

(* ================================================================= *)
(** ** Properties *)

Section Properties.

Context {Session : Type}.
Variable send : Request -> Session -> (PyVal + string) * Session.

Implicit Types (st : @World Session) (v : PyVal) (d : Dict).

(** *** Dicts *)

Lemma set_if_falsy v k x d :
  truthy v = false -> set_if (truthy v) k x d = d.
Proof. intros H. unfold set_if. now rewrite H. Qed.

Lemma dict_get_set_same k x d : dict_get k (dict_set k x d) = Some x.
Proof.
  induction d as [|[k' x'] d IH]; simpl.
  - now rewrite String.eqb_refl.
  - destruct (String.eqb k k') eqn:E; simpl.
    + now rewrite String.eqb_refl.
    + now rewrite E.
Qed.

Lemma dict_get_set_other k k' x d :
  k <> k' -> dict_get k (dict_set k' x d) = dict_get k d.
Proof.
  intros Hne. induction d as [|[k0 x0] d IH]; simpl.
  - destruct (String.eqb_spec k k'); [contradiction | reflexivity].
  - destruct (String.eqb_spec k' k0) as [->|Hk]; simpl.
    + destruct (String.eqb_spec k k0); [contradiction | reflexivity].
    + destruct (String.eqb k k0); auto.
Qed.

Lemma truthy_str s : truthy (PStr s) = true <-> s <> "".
Proof.
  simpl. destruct (String.eqb_spec s ""); simpl; split; intros; congruence.
Qed.

Lemma truthy_some s : s <> "" -> truthy (of_opt (Some s)) = true.
Proof. intros H. now apply truthy_str. Qed.

(** *** The log *)

Lemma skipn_app_tail {A} (l t : list A) : skipn (length l) (l ++ t) = t.
Proof. induction l; simpl; auto. Qed.

Lemma call_run vb (w : Wrap) args ps ds st :
  call send vb w args ps ds st =
  (match fst (send (request_of vb w args ps ds) (net st)) with
   | inl body => Return body
   | inr e => Raise (TransportError e)
   end,
   {| self := self st;
      net := snd (send (request_of vb w args ps ds) (net st));
      sent := sent st ++ [request_of vb w args ps ds] |}).
Proof. unfold call. now destruct (send _ _). Qed.

(** A method that reads the wrapper and makes one call issues exactly the
    request it built. *)
Lemma requests_one_call vb (f : Root -> Wrap) args ps ds st :
  requests (w <- get_wrapper ;; call send vb (f w) args ps ds) st =
  [request_of vb (f (_wrapper (self st))) args ps ds].
Proof.
  unfold requests, bind, get_wrapper, get__wrapper.
  rewrite call_run. simpl. apply skipn_app_tail.
Qed.

(** *** The frame of the monad's operations *)

Lemma keeps_self_ret {A} (a : A) : keeps_self (@ret Session A a).
Proof. now intros st. Qed.

Lemma keeps_self_raise {A} e : keeps_self (@raise Session A e).
Proof. now intros st. Qed.

Lemma keeps_self_lift {A} (r : Result A) : keeps_self (@lift Session A r).
Proof. now intros st. Qed.

Lemma keeps_self_get_wrapper : keeps_self (@get_wrapper Session).
Proof. now intros st. Qed.

Lemma keeps_self_call vb w args ps ds : keeps_self (call send vb w args ps ds).
Proof. intros st. now rewrite call_run. Qed.

Lemma keeps_self_bind {A B} (m : @M Session A) (k : A -> @M Session B) :
  keeps_self m -> (forall a, keeps_self (k a)) -> keeps_self (bind m k).
Proof.
  intros Hm Hk st. unfold bind. specialize (Hm st).
  destruct (m st) as [[a|e] st']; simpl in *.
  - now rewrite Hk.
  - assumption.
Qed.

(** *** authenticate *)

Lemma login_request_eq (w : Root) u p :
  request_of POST (w ./ "auth" ./ "login") [] None
    (Some [("usernameOrEmail", PStr u); ("password", of_opt p)]) =
  login_request w u p.
Proof. reflexivity. Qed.

Lemma getattr_dict v k x :
  getattr v k = Return x -> exists d, v = PDict d /\ dict_get k d = Some x.
Proof.
  destruct v as [| | | | |d]; simpl; try discriminate.
  destruct (dict_get k d) eqn:E; intros H; inversion H; subst; eauto.
Qed.

Ltac enter_login Hu Hp :=
  unfold authenticate;
  rewrite (proj2 (truthy_str _) Hu), (truthy_some _ Hp);
  cbn [andb]; unfold bind, get__wrapper; cbv beta iota;
  rewrite call_run, login_request_eq.

(** C3. A call with a non-empty username and password whose login response
    has an [email] field equal to the username returns [None], raises
    nothing and leaves the object with [authenticated] true (the wrapper
    untouched); the one request issued is the login request. *)
Theorem authenticate_success u p a st body n' :
  u <> "" -> p <> "" ->
  send (login_request (_wrapper (self st)) u (Some p)) (net st)
    = (inl body, n') ->
  getattr body "email" = Return (PStr u) ->
  authenticate send u (Some p) a st =
  (Return tt,
   {| self := {| _wrapper := _wrapper (self st); authenticated := true |};
      net := n';
      sent := sent st ++ [login_request (_wrapper (self st)) u (Some p)] |}).
Proof.
  intros Hu Hp Hsend Hmail.
  destruct (getattr_dict _ _ _ Hmail) as (d & -> & Hd).
  enter_login Hu Hp. rewrite Hsend. simpl.
  unfold bind, lift, ret, set_authenticated; simpl.
  unfold dict_has. rewrite Hd. simpl. now rewrite String.eqb_refl.
Qed.

(** When the response is a bunch that carries a [reason] and its [email] is
    missing or differs from the username, the call raises
    [LinkuriousException] with that reason and writes no field. *)
Lemma authenticate_rejected u p a st body n' reason :
  u <> "" -> p <> "" ->
  send (login_request (_wrapper (self st)) u (Some p)) (net st)
    = (inl body, n') ->
  getattr body "email" <> Return (PStr u) ->
  getattr body "reason" = Return reason ->
  authenticate send u (Some p) a st =
  (Raise (LinkuriousException [Lit "could not authenticate "; Fmt reason]),
   {| self := self st;
      net := n';
      sent := sent st ++ [login_request (_wrapper (self st)) u (Some p)] |}).
Proof.
  intros Hu Hp Hsend Hmail Hreason.
  destruct (getattr_dict _ _ _ Hreason) as (d & -> & Hd).
  enter_login Hu Hp. rewrite Hsend. simpl in *.
  unfold bind, lift, ret, raise; simpl.
  unfold dict_has. destruct (dict_get "email" d) as [e|] eqn:E; simpl.
  - destruct e as [| | |s| |]; simpl; try (now rewrite Hd).
    destruct (String.eqb_spec s u) as [->|Hne]; [now elim Hmail|].
    now rewrite Hd.
  - now rewrite Hd.
Qed.

(** Whatever the transport answers, a call that raises has written no
    field of the object. *)
Lemma authenticate_raise_keeps_self u p a st e :
  fst (authenticate send u p a st) = Raise e ->
  self (snd (authenticate send u p a st)) = self st.
Proof.
  unfold authenticate.
  destruct (truthy (PStr u) && truthy (of_opt p)).
  - unfold bind, get__wrapper; cbv beta iota. rewrite call_run.
    destruct (fst (send _ _)) as [res|err]; [|reflexivity].
    unfold lift, ret, raise, set_authenticated.
    destruct (contains "email" res) as [[|]|]; simpl; try reflexivity.
    + destruct (getattr res "email") as [x|]; simpl; try reflexivity.
      destruct (eq_str x u); simpl; [discriminate|].
      now destruct (getattr res "reason").
    + now destruct (getattr res "reason").
  - now destruct (truthy (PStr u) && truthy (of_opt a)).
Qed.

(** C5. With a non-empty username, a non-empty apikey and no usable
    password, the call raises the "not yet implemented" exception whatever
    the key is; the world is unchanged, so no request was issued. *)
Theorem authenticate_apikey_unsupported u p k st :
  u <> "" -> truthy (of_opt p) = false -> k <> "" ->
  authenticate send u p (Some k) st =
  (Raise (LinkuriousException
            [Lit "apikey authentication not yet implemented"]), st).
Proof.
  intros Hu Hp Hk. unfold authenticate.
  rewrite Hp, andb_false_r.
  now rewrite (proj2 (truthy_str _) Hu), (truthy_some _ Hk).
Qed.

(** C8. With neither a usable password nor a usable apikey, the call raises
    the "without password or apikey" exception, for every username; the
    world is unchanged: no field written, no request issued. *)
Theorem authenticate_no_credential u p k st :
  truthy (of_opt p) = false -> truthy (of_opt k) = false ->
  authenticate send u p k st =
  (Raise (LinkuriousException
            [Lit "could not authenticate without password or apikey"]), st).
Proof.
  intros Hp Hk. unfold authenticate. now rewrite Hp, Hk, !andb_false_r.
Qed.

#[local] Hint Resolve keeps_self_ret keeps_self_raise keeps_self_lift
  keeps_self_get_wrapper keeps_self_call keeps_self_bind : frame.

(** *** Construction *)

(** C6. Built with a non-empty username, the constructor is the run of
    [authenticate] with the same arguments on the new object: it raises
    exactly what that run raises and otherwise returns the object as that
    run left it.  Built without a username ([None] or the empty string) it
    issues no request and returns an object with [authenticated] false. *)
Theorem construction_authenticates host u p a dbg n :
  u <> "" ->
  let st0 := {| self := new_object host dbg; net := n; sent := [] |} in
  let run := authenticate send u p a st0 in
  __init__ send host (Some u) p a dbg n = run
  /\ (forall e, constructed (__init__ send host (Some u) p a dbg n) = Raise e
                <-> fst run = Raise e)
  /\ (forall c, constructed (__init__ send host (Some u) p a dbg n) = Return c
                <-> fst run = Return tt /\ c = self (snd run))
  /\ __init__ send host None p a dbg n = (Return tt, st0)
  /\ __init__ send host (Some "") p a dbg n = (Return tt, st0)
  /\ constructed (Return tt, st0) = Return (new_object host dbg)
  /\ authenticated (new_object host dbg) = false.
Proof.
  intros Hu st0 run.
  assert (E : __init__ send host (Some u) p a dbg n = run).
  { unfold __init__. now rewrite (truthy_some _ Hu). }
  repeat split; try reflexivity; try assumption; rewrite E in *.
  - unfold constructed. destruct (fst run); congruence.
  - unfold constructed. intros ->. reflexivity.
  - unfold constructed in H. destruct (fst run) as [[]|]; congruence.
  - unfold constructed in H. destruct (fst run); congruence.
  - intros [H ->]. unfold constructed. now rewrite H.
Qed.

(** *** Request building *)

Ltac one_request := unfold requests; intros; rewrite ?requests_one_call.

Ltac by_truthiness :=
  unfold set_if; cbn [truthy];
  repeat match goal with
         | |- context [truthy ?x] => is_var x; destruct (truthy x)
         end;
  reflexivity.

(** C7. [run_cypher_query("s1", "MATCH (n) RETURN n")] issues one request,
    a POST to [s1/graph/run/query] whose body is exactly the four fields
    query, dialect, withDigest, withDegree; and the dialect field is
    ["cypher"] for every invocation. *)
Theorem run_cypher_query_request st :
  requests (run_cypher_query send "s1" (PStr "MATCH (n) RETURN n")
              (PBool false) (PBool false)) st =
  [{| verb := POST; base := url (_wrapper (self st));
      parts := ["s1/graph/run/query"]; params := None;
      data := Some [("query", PStr "MATCH (n) RETURN n");
                    ("dialect", PStr "cypher");
                    ("withDigest", PBool false);
                    ("withDegree", PBool false)] |}]
  /\ map path (requests (run_cypher_query send "s1"
                           (PStr "MATCH (n) RETURN n")
                           (PBool false) (PBool false)) st)
     = ["s1/graph/run/query"]
  /\ forall sourcekey query with_digest with_degree,
       carries field "dialect" (PStr "cypher")
         (run_cypher_query send sourcekey query with_digest with_degree).
Proof.
  repeat split; unfold carries, run_cypher_query; intros;
    now rewrite requests_one_call.
Qed.

(** C2, as the code has it.  [get_sources_status] sends [with_styles] and
    [with_captions] as the integer [1] when the caller passes [True] and as
    the unchanged boolean [False] when the caller passes [False]. *)
Theorem get_sources_status_encoding (with_styles with_captions : bool) st :
  requests (get_sources_status send (PBool with_styles) (PBool with_captions))
    st =
  [{| verb := GET; base := url (_wrapper (self st));
      parts := ["dataSources"];
      params :=
        Some [("with_styles", if with_styles then PInt 1 else PBool false);
              ("with_captions",
               if with_captions then PInt 1 else PBool false)];
      data := None |}].
Proof.
  unfold get_sources_status. rewrite requests_one_call.
  now destruct with_styles, with_captions.
Qed.

(** C1, as the code has it.  An optional parameter left at its default is
    absent from the request exactly where the method guards the key with an
    [if]: the seven filters of [get_users], [path] and [configuration] of
    [update_config], [groups], [rights] and [name] of [update_application],
    [forceLock] and [doLayout] of [update_visualization].  Every other
    optional parameter is sent under its key with its default value:
    [get_custom_files] sends [root] and [extensions] bound to [None],
    [get_sources_status] and [get_visualization] send their two flags bound
    to [False], and likewise [get_config], [update_config],
    [create_application], [update_application], [run_cypher_query] and
    [update_visualization] for their unguarded defaults. *)
Theorem defaults_omitted_or_sent :
  (* guarded keys *)
  (forall c g l o sb sd,
     absent param "starts_with" (get_users send PNone c g l o sb sd))
  /\ (forall sw g l o sb sd,
        absent param "contains" (get_users send sw PNone g l o sb sd))
  /\ (forall sw c l o sb sd,
        absent param "group_id" (get_users send sw c PNone l o sb sd))
  /\ (forall sw c g o sb sd,
        absent param "limit" (get_users send sw c g PNone o sb sd))
  /\ (forall sw c g l sb sd,
        absent param "offset" (get_users send sw c g l PNone sb sd))
  /\ (forall sw c g l o sd,
        absent param "sort_by" (get_users send sw c g l o PNone sd))
  /\ (forall sw c g l o sb,
        absent param "sort_direction" (get_users send sw c g l o sb PNone))
  /\ (forall si cv r,
        absent field "path" (update_config send si PNone cv r))
  /\ (forall si pa r,
        absent field "configuration" (update_config send si pa PNone r))
  /\ (forall id en g r,
        absent field "name" (update_application send id PNone en g r))
  /\ (forall id na en r,
        absent field "groups" (update_application send id na en PNone r))
  /\ (forall id na en g,
        absent field "rights" (update_application send id na en g PNone))
  /\ (forall sk id vi dl,
        absent field "forceLock"
          (update_visualization send sk id vi (PBool false) dl))
  /\ (forall sk id vi fl,
        absent field "doLayout"
          (update_visualization send sk id vi fl (PBool false)))
  (* unguarded keys *)
  /\ (forall ext,
        carries param "root" PNone (get_custom_files send PNone ext))
  /\ (forall ro,
        carries param "extensions" PNone (get_custom_files send ro PNone))
  /\ (forall wc,
        carries param "with_styles" (PBool false)
          (get_sources_status send (PBool false) wc))
  /\ (forall ws,
        carries param "with_captions" (PBool false)
          (get_sources_status send ws (PBool false)))
  /\ (forall sk id wg,
        carries param "withDigest" (PBool false)
          (get_visualization send sk id (PBool false) wg))
  /\ (forall sk id wd,
        carries param "withDegree" (PBool false)
          (get_visualization send sk id wd (PBool false)))
  /\ carries param "sourceIndex" (PInt 0) (get_config send (PInt 0))
  /\ (forall pa cv r,
        carries field "sourceIndex" (PInt 0)
          (update_config send (PInt 0) pa cv r))
  /\ (forall si pa cv,
        carries field "reset" (PBool false)
          (update_config send si pa cv (PBool false)))
  /\ (forall na g r,
        carries field "enabled" (PBool true)
          (create_application send na g r (PBool true)))
  /\ (forall id na g r,
        carries field "enabled" (PBool true)
          (update_application send id na (PBool true) g r))
  /\ (forall sk q wg,
        carries field "withDigest" (PBool false)
          (run_cypher_query send sk q (PBool false) wg))
  /\ (forall sk q wd,
        carries field "withDegree" (PBool false)
          (run_cypher_query send sk q wd (PBool false)))
  /\ (forall sk id fl dl,
        carries field "visualization" (PDict [])
          (update_visualization send sk id PNone fl dl)).
Proof.
  unfold absent, carries.
  repeat split; intros;
    unfold get_users, update_config, update_application, update_visualization,
      get_custom_files, get_sources_status, get_visualization, get_config,
      create_application, run_cypher_query;
    rewrite requests_one_call; by_truthiness.
Qed.

(** C10. Where a field is guarded by a truthiness test, a falsy argument
    ([0], the empty string, [False], an empty list or dict, [None]) is the
    same call as the one that leaves the argument at its default, and the
    key is absent from the request. *)
Theorem falsy_is_omitted v :
  truthy v = false ->
  (forall c g l o sb sd,
     omitted_as param "starts_with"
       (get_users send v c g l o sb sd) (get_users send PNone c g l o sb sd))
  /\ (forall sw g l o sb sd,
        omitted_as param "contains"
          (get_users send sw v g l o sb sd)
          (get_users send sw PNone g l o sb sd))
  /\ (forall sw c l o sb sd,
        omitted_as param "group_id"
          (get_users send sw c v l o sb sd)
          (get_users send sw c PNone l o sb sd))
  /\ (forall sw c g o sb sd,
        omitted_as param "limit"
          (get_users send sw c g v o sb sd)
          (get_users send sw c g PNone o sb sd))
  /\ (forall sw c g l sb sd,
        omitted_as param "offset"
          (get_users send sw c g l v sb sd)
          (get_users send sw c g l PNone sb sd))
  /\ (forall sw c g l o sd,
        omitted_as param "sort_by"
          (get_users send sw c g l o v sd)
          (get_users send sw c g l o PNone sd))
  /\ (forall sw c g l o sb,
        omitted_as param "sort_direction"
          (get_users send sw c g l o sb v)
          (get_users send sw c g l o sb PNone))
  /\ (forall si cv r,
        omitted_as field "path"
          (update_config send si v cv r) (update_config send si PNone cv r))
  /\ (forall si pa r,
        omitted_as field "configuration"
          (update_config send si pa v r) (update_config send si pa PNone r))
  /\ (forall id en g r,
        omitted_as field "name"
          (update_application send id v en g r)
          (update_application send id PNone en g r))
  /\ (forall id na en r,
        omitted_as field "groups"
          (update_application send id na en v r)
          (update_application send id na en PNone r))
  /\ (forall id na en g,
        omitted_as field "rights"
          (update_application send id na en g v)
          (update_application send id na en g PNone))
  /\ (forall sk id vi dl,
        omitted_as field "forceLock"
          (update_visualization send sk id vi v dl)
          (update_visualization send sk id vi (PBool false) dl))
  /\ (forall sk id vi fl,
        omitted_as field "doLayout"
          (update_visualization send sk id vi fl v)
          (update_visualization send sk id vi fl (PBool false))).
Proof.
  intros Hv. unfold omitted_as, absent.
  repeat split; intros;
    unfold get_users, update_config, update_application, update_visualization;
    rewrite ?requests_one_call, ?(set_if_falsy v) by exact Hv;
    by_truthiness.
Qed.

(** *** The frame of the endpoint methods *)

(** C9. No method other than [authenticate] writes a field of the object:
    run from any state, with any arguments and any transport, each leaves
    [_wrapper] and [authenticated] as they were. *)
Theorem endpoints_keep_self :
  keeps_self (@get_wrapper Session)
  /\ keeps_self (status send)
  /\ keeps_self (version send)
  /\ (forall ro ext, keeps_self (get_custom_files send ro ext))
  /\ (forall ws wc, keeps_self (get_sources_status send ws wc))
  /\ keeps_self (get_sources_info send)
  /\ (forall si, keeps_self (get_config send si))
  /\ (forall si pa cv r, keeps_self (update_config send si pa cv r))
  /\ keeps_self (get_applications send)
  /\ (forall na g r en, keeps_self (create_application send na g r en))
  /\ (forall id na en g r, keeps_self (update_application send id na en g r))
  /\ (forall sk q wd wg, keeps_self (run_cypher_query send sk q wd wg))
  /\ (forall sk, keeps_self (get_visualizations_tree send sk))
  /\ (forall sk id wd wg, keeps_self (get_visualization send sk id wd wg))
  /\ (forall sk t ns es, keeps_self (create_visualization send sk t ns es))
  /\ (forall sk id vi fl dl,
        keeps_self (update_visualization send sk id vi fl dl))
  /\ (forall sk id, keeps_self (delete_visualization send sk id))
  /\ (forall sk id, keeps_self (get_visualization_share_rights send sk id))
  /\ (forall sk id uid r, keeps_self (share_visualization send sk id uid r))
  /\ (forall sk id uid, keeps_self (unshare_visualization send sk id uid))
  /\ (forall sw c g l o sb sd, keeps_self (get_users send sw c g l o sb sd))
  /\ (forall sk, keeps_self (get_groups send sk)).
Proof.
  repeat split; intros;
    unfold status, version, get_custom_files, get_sources_status,
      get_sources_info, get_config, update_config, get_applications,
      create_application, update_application, run_cypher_query,
      get_visualizations_tree, get_visualization, create_visualization,
      update_visualization, delete_visualization,
      get_visualization_share_rights, share_visualization,
      unshare_visualization, get_users, get_groups;
    auto with frame.
Qed.

(** *** More on authenticate *)

Ltac login_cases :=
  repeat match goal with
         | |- context [contains ?k ?b] => destruct (contains k b) as [[|]|]
         | |- context [getattr ?b ?k] => destruct (getattr b k)
         | |- context [eq_str ?x ?s] => destruct (eq_str x s)
         end;
  simpl.

(** The run of the password branch once the login call has answered. *)
Lemma login_outcome u p a st body n' :
  u <> "" -> p <> "" ->
  send (login_request (_wrapper (self st)) u (Some p)) (net st)
    = (inl body, n') ->
  let st1 := {| self := self st; net := n';
                sent := sent st ++
                        [login_request (_wrapper (self st)) u (Some p)] |} in
  authenticate send u (Some p) a st =
  match contains "email" body with
  | Raise e => (Raise e, st1)
  | Return has =>
      match (if has
             then match getattr body "email" with
                  | Return e => Return (eq_str e u)
                  | Raise e => Raise e
                  end
             else Return false) with
      | Raise e => (Raise e, st1)
      | Return true => (Return tt, with_flag true st1)
      | Return false =>
          match getattr body "reason" with
          | Return r =>
              (Raise (LinkuriousException
                        [Lit "could not authenticate "; Fmt r]), st1)
          | Raise e => (Raise e, st1)
          end
      end
  end.
Proof.
  intros Hu Hp Hsend st1. enter_login Hu Hp. rewrite Hsend. simpl fst; simpl snd.
  unfold lift, ret, raise, set_authenticated.
  login_cases; reflexivity.
Qed.

Lemma eq_str_true x s : eq_str x s = true <-> x = PStr s.
Proof.
  destruct x as [| | |t| |]; simpl; split; try discriminate.
  - now intros ->%String.eqb_eq.
  - intros [= ->]. apply String.eqb_refl.
Qed.

(** X1. Once the login call has answered, [authenticate] returns normally
    exactly when the answer is a bunch whose [email] is the username: no
    other response shape authenticates. *)
Theorem authenticate_returns_iff u p a st body n' :
  u <> "" -> p <> "" ->
  send (login_request (_wrapper (self st)) u (Some p)) (net st)
    = (inl body, n') ->
  fst (authenticate send u (Some p) a st) = Return tt
  <-> getattr body "email" = Return (PStr u).
Proof.
  intros Hu Hp Hsend. rewrite (login_outcome u p a st body n' Hu Hp Hsend).
  destruct body as [| | |s|l|d]; simpl.
  1-3: split; discriminate.
  - destruct (substring_of "email" s); simpl; split; discriminate.
  - destruct (existsb _ l); simpl; split; discriminate.
  - unfold dict_has. destruct (dict_get "email" d) as [e|] eqn:E; simpl.
    + destruct (eq_str e u) eqn:Ee; simpl.
      * apply eq_str_true in Ee. subst. now split.
      * split.
        -- destruct (dict_get "reason" d); discriminate.
        -- intros [= ->]. rewrite (proj2 (eq_str_true _ _) eq_refl) in Ee.
           discriminate.
    + split; [|discriminate]. destruct (dict_get "reason" d); discriminate.
Qed.

(** X2. [authenticate] issues the login request, carrying the username
    and the password in its body, exactly when both are truthy, and issues
    nothing otherwise; it never issues a second request. *)
Theorem authenticate_requests u p a st :
  requests (authenticate send u p a) st =
  if truthy (PStr u) && truthy (of_opt p)
  then [login_request (_wrapper (self st)) u p]
  else [].
Proof.
  unfold requests, authenticate.
  destruct (truthy (PStr u) && truthy (of_opt p)).
  - unfold bind, get__wrapper; cbv beta iota.
    rewrite call_run, login_request_eq.
    destruct (fst (send _ _)) as [res|err]; [|apply skipn_app_tail].
    unfold lift, ret, raise, set_authenticated.
    login_cases; apply skipn_app_tail.
  - destruct (truthy (PStr u) && truthy (of_opt a)); simpl; apply skipn_all.
Qed.

(** The fields after a call, by its outcome. *)
Lemma authenticate_fields u p a st :
  _wrapper (self (snd (authenticate send u p a st))) = _wrapper (self st)
  /\ authenticated (self (snd (authenticate send u p a st))) =
     match fst (authenticate send u p a st) with
     | Return _ => true
     | Raise _ => authenticated (self st)
     end.
Proof.
  unfold authenticate.
  destruct (truthy (PStr u) && truthy (of_opt p)).
  - unfold bind, get__wrapper; cbv beta iota. rewrite call_run.
    destruct (fst (send _ _)) as [res|err]; [|now split].
    unfold lift, ret, raise, set_authenticated.
    login_cases; now split.
  - now destruct (truthy (PStr u) && truthy (of_opt a)).
Qed.

(** X3. [authenticate] never rebinds [_wrapper] and never clears
    [authenticated]: the flag is true after a call that returns, and is
    what it was after a call that raises, so a failed new login leaves an
    earlier success flagged. *)
Theorem authenticate_flag u p a st :
  _wrapper (self (snd (authenticate send u p a st))) = _wrapper (self st)
  /\ authenticated (self (snd (authenticate send u p a st))) =
     match fst (authenticate send u p a st) with
     | Return _ => true
     | Raise _ => authenticated (self st)
     end.
Proof.
  unfold authenticate.
  destruct (truthy (PStr u) && truthy (of_opt p)).
  - unfold bind, get__wrapper; cbv beta iota. rewrite call_run.
    destruct (fst (send _ _)) as [res|err]; [|now split].
    unfold lift, ret, raise, set_authenticated.
    login_cases; now split.
  - now destruct (truthy (PStr u) && truthy (of_opt a)).
Qed.

(** X4. [authenticate] does not look at [authenticated]: on an object
    already flagged it runs the same login, with the same outcome, session
    and requests. *)
Theorem authenticate_ignores_flag u p a :
  ignores_flag (authenticate send u p a).
Proof.
  intros st b. unfold authenticate.
  destruct (truthy (PStr u) && truthy (of_opt p)).
  - unfold bind, get__wrapper; cbv beta iota. rewrite !call_run.
    cbn [with_flag self net sent _wrapper].
    destruct (fst (send _ _)) as [res|err]; [|now repeat split].
    unfold lift, ret, raise, set_authenticated.
    login_cases; now repeat split.
  - now destruct (truthy (PStr u) && truthy (of_opt a)).
Qed.

(** X5. A usable password takes precedence: with a non-empty password the
    apikey is never looked at, so the call is the one without apikey. *)
Theorem authenticate_password_first u p k st :
  p <> "" ->
  authenticate send u (Some p) (Some k) st =
  authenticate send u (Some p) None st.
Proof.
  intros Hp. unfold authenticate. rewrite (truthy_some _ Hp).
  now destruct (truthy (PStr u)).
Qed.





(** X7. An error of the transport during the login leaves [authenticate]
    unchanged as that error: nothing is caught, no field is written, and
    the request stays in the log. *)
Theorem authenticate_transport_error u p a st err n' :
  u <> "" -> p <> "" ->
  send (login_request (_wrapper (self st)) u (Some p)) (net st)
    = (inr err, n') ->
  authenticate send u (Some p) a st =
  (Raise (TransportError err),
   {| self := self st; net := n';
      sent := sent st ++ [login_request (_wrapper (self st)) u (Some p)] |}).
Proof.
  intros Hu Hp Hsend. enter_login Hu Hp. now rewrite Hsend.
Qed.

(** X8. A login answer that is not a bunch never authenticates and never
    yields a [LinkuriousException]: [None], a boolean or a number raises
    [TypeError] at the [in] test; a string or a list raises
    [AttributeError], on [email] when the [in] test holds and on [reason]
    otherwise.  No field is written. *)
Theorem authenticate_not_a_bunch u p a st body n' :
  u <> "" -> p <> "" ->
  send (login_request (_wrapper (self st)) u (Some p)) (net st)
    = (inl body, n') ->
  (forall d, body <> PDict d) ->
  fst (authenticate send u (Some p) a st) =
    Raise (match body with
           | PStr s =>
               AttributeError
                 (if substring_of "email" s then "email" else "reason")
           | PList l =>
               AttributeError
                 (if existsb (fun x => eq_str x "email") l
                  then "email" else "reason")
           | _ => TypeError
           end)
  /\ self (snd (authenticate send u (Some p) a st)) = self st.
Proof.
  intros Hu Hp Hsend Hnd.
  rewrite (login_outcome u p a st body n' Hu Hp Hsend).
  destruct body as [| | |s|l|d]; simpl; try (now split).
  - now destruct (substring_of "email" s).
  - now destruct (existsb _ l).
  - now elim (Hnd d).
Qed.

(** *** More on the endpoint methods *)

Ltac unfold_endpoints :=
  unfold status, version, get_custom_files, get_sources_status,
    get_sources_info, get_config, update_config, get_applications,
    create_application, update_application, run_cypher_query,
    get_visualizations_tree, get_visualization, create_visualization,
    update_visualization, delete_visualization,
    get_visualization_share_rights, share_visualization,
    unshare_visualization, get_users, get_groups.

(** The shape every endpoint method has: read the wrapper, make one call. *)
Lemma single_call_pattern vb (f : Root -> Wrap) args ps ds :
  (forall w, root (f w) = w) ->
  single_call send (w <- get_wrapper ;; call send vb (f w) args ps ds).
Proof.
  intros Hroot. exists (fun w => request_of vb (f w) args ps ds). split.
  - intros w. simpl. now rewrite Hroot.
  - intros st. unfold bind, get_wrapper, get__wrapper. now rewrite call_run.
Qed.

Lemma ignores_flag_pattern vb (f : Root -> Wrap) args ps ds :
  ignores_flag (w <- get_wrapper ;; call send vb (f w) args ps ds).
Proof.
  intros st b. unfold bind, get_wrapper, get__wrapper.
  rewrite !call_run. now repeat split.
Qed.

(** X9. Every endpoint method makes exactly one call, to the base URL of
    the object's wrapper, and hands the transport's outcome to its caller
    as it is: the parsed body is returned unchanged, an error is raised
    unchanged, nothing is retried and no field is written. *)
Theorem endpoints_single_call : every_endpoint send (single_call send).
Proof.
  unfold every_endpoint. repeat split; intros; unfold_endpoints;
    cbv zeta; apply single_call_pattern; reflexivity.
Qed.

(** X10. No endpoint method looks at [authenticated]: called on an object
    that never logged in, each issues the same request and has the same
    outcome as on a logged-in one. *)
Theorem endpoints_ignore_flag : every_endpoint send ignores_flag.
Proof.
  unfold every_endpoint. repeat split; intros; unfold_endpoints;
    cbv zeta; apply ignores_flag_pattern.
Qed.

(** X11. The payload goes with the verb: the GET methods never send a
    body, the DELETE methods send neither body nor query parameters, and
    the POST, PATCH and PUT methods never send query parameters. *)
Theorem endpoints_payload_by_verb : every_endpoint send payload_by_verb.
Proof.
  unfold every_endpoint, payload_by_verb.
  repeat split; intros; unfold_endpoints; cbv zeta;
    rewrite requests_one_call; constructor; try constructor;
    unfold well_shaped; simpl; auto.
Qed.

(** X12. Where a field is guarded by a truthiness test and forwarded, a
    truthy argument is sent under its key as it is, whatever the other
    arguments are. *)
Theorem truthy_is_forwarded v :
  truthy v = true ->
  (forall c g l o sb sd,
     carries param "starts_with" v (get_users send v c g l o sb sd))
  /\ (forall sw g l o sb sd,
        carries param "contains" v (get_users send sw v g l o sb sd))
  /\ (forall sw c l o sb sd,
        carries param "group_id" v (get_users send sw c v l o sb sd))
  /\ (forall sw c g o sb sd,
        carries param "limit" v (get_users send sw c g v o sb sd))
  /\ (forall sw c g l sb sd,
        carries param "offset" v (get_users send sw c g l v sb sd))
  /\ (forall sw c g l o sd,
        carries param "sort_by" v (get_users send sw c g l o v sd))
  /\ (forall sw c g l o sb,
        carries param "sort_direction" v (get_users send sw c g l o sb v))
  /\ (forall si cv r,
        carries field "path" v (update_config send si v cv r))
  /\ (forall si pa r,
        carries field "configuration" v (update_config send si pa v r))
  /\ (forall id en g r,
        carries field "name" v (update_application send id v en g r))
  /\ (forall id na en r,
        carries field "groups" v (update_application send id na en v r))
  /\ (forall id na en g,
        carries field "rights" v (update_application send id na en g v)).
Proof.
  intros Hv. unfold carries.
  repeat split; intros;
    unfold get_users, update_config, update_application;
    rewrite requests_one_call, Hv; by_truthiness.
Qed.

(** X13. [update_visualization] always sends a [visualization] field, the
    argument itself or an empty dict for [None]; [forceLock] and [doLayout]
    are sent only as [True], for a truthy flag of any value, and are absent
    otherwise. *)
Theorem update_visualization_body sk id vi fl dl st :
  map data (requests (update_visualization send sk id vi fl dl) st) =
  [Some ([("visualization",
           match vi with PNone => PDict [] | _ => vi end)]
         ++ (if truthy fl then [("forceLock", PBool true)] else [])
         ++ (if truthy dl then [("doLayout", PBool true)] else []))%list].
Proof.
  unfold update_visualization. rewrite requests_one_call.
  unfold set_if. now destruct (truthy fl), (truthy dl).
Qed.

(** X14. [get_sources_status] never sends a literal [True]: whatever the
    two arguments are, neither query parameter is the boolean [True]. *)
Theorem get_sources_status_never_true ws wc st :
  map (param "with_styles") (requests (get_sources_status send ws wc) st)
    <> [Some (PBool true)]
  /\ map (param "with_captions") (requests (get_sources_status send ws wc) st)
       <> [Some (PBool true)].
Proof.
  unfold get_sources_status. rewrite requests_one_call.
  assert (F : forall x, (if truthy x then PInt 1 else x) <> PBool true).
  { intros x. destruct (truthy x) eqn:E; [discriminate|].
    intros ->. discriminate. }
  split; intros [= H]; exact (F _ H).
Qed.

(** X15. The unguarded fields are sent as given, falsy values included,
    and the guarded insertions never disturb them: [sourceIndex] and
    [reset] of [update_config], [id] and [enabled] of [update_application],
    [sourceIndex] of [get_config] and the four fields of
    [create_application]. *)
Theorem unguarded_is_forwarded :
  (forall si pa cv r,
     carries field "sourceIndex" si (update_config send si pa cv r))
  /\ (forall si pa cv r,
        carries field "reset" r (update_config send si pa cv r))
  /\ (forall id na en g r,
        carries field "id" id (update_application send id na en g r))
  /\ (forall id na en g r,
        carries field "enabled" en (update_application send id na en g r))
  /\ (forall si, carries param "sourceIndex" si (get_config send si))
  /\ (forall na g r en st,
        map data (requests (create_application send na g r en) st) =
        [Some [("name", na); ("groups", g); ("rights", r);
               ("enabled", en)]]).
Proof.
  unfold carries.
  repeat split; intros;
    unfold update_config, update_application, get_config, create_application;
    rewrite requests_one_call; by_truthiness.
Qed.

(** *** Paths *)

Lemma to_int_not_nil z :
  Z.to_int z <> Decimal.Pos Decimal.Nil
  /\ Z.to_int z <> Decimal.Neg Decimal.Nil.
Proof.
  pose proof (DecimalZ.to_of (Z.to_int z)) as H.
  rewrite DecimalZ.of_to in H.
  split; intros E; rewrite E in H; discriminate.
Qed.

Lemma str_int_inj a b : str_int a = str_int b -> a = b.
Proof.
  unfold str_int. intros H. apply DecimalZ.to_int_inj.
  apply (f_equal NilZero.int_of_string) in H.
  rewrite !NilZero.isi in H by apply to_int_not_nil.
  now injection H.
Qed.

Lemma append_inv_head (q s t : string) : q ++ s = q ++ t -> s = t.
Proof.
  induction q as [|c q IH]; simpl; intros H; [assumption|].
  injection H as H. auto.
Qed.

Lemma path_one_part vb (w : Root) (s : string) ps ds :
  path (request_of vb w [s] ps ds) = s.
Proof. reflexivity. Qed.

(** X16. The id is written into the path in a form that tells ids apart:
    for one source key, getting, updating or deleting two different
    visualizations never addresses the same path. *)
Theorem visualization_paths_differ sk id id' st :
  id <> id' ->
  (forall wd wg wd' wg',
     map path (requests (get_visualization send sk id wd wg) st)
     <> map path (requests (get_visualization send sk id' wd' wg') st))
  /\ (forall vi fl dl vi' fl' dl',
        map path (requests (update_visualization send sk id vi fl dl) st)
        <> map path
             (requests (update_visualization send sk id' vi' fl' dl') st))
  /\ map path (requests (delete_visualization send sk id) st)
     <> map path (requests (delete_visualization send sk id') st).
Proof.
  intros Hne.
  repeat split; intros;
    unfold get_visualization, update_visualization, delete_visualization;
    cbv zeta; rewrite !requests_one_call; cbn [map];
    rewrite !path_one_part; intros H; apply Hne, str_int_inj;
    apply (append_inv_head "/visualizations/"), (append_inv_head sk);
    now injection H.
Qed.

(** *** More on construction *)

(** X17. An object the constructor returns has its wrapper on
    [host/api] with the given debug flag, and is flagged authenticated
    exactly when a username was given: construction with a username never
    returns an object that is not logged in. *)
Theorem construction_result host username p a dbg n c :
  constructed (__init__ send host username p a dbg n) = Return c ->
  _wrapper c = wrap (host ++ "/api") dbg
  /\ authenticated c = truthy (of_opt username).
Proof.
  unfold __init__, constructed.
  destruct (truthy (of_opt username)) eqn:E.
  - destruct username as [u|]; [|discriminate].
    destruct (authenticate_fields u p a
                {| self := new_object host dbg; net := n; sent := [] |})
      as [Hw Hf].
    destruct (fst (authenticate send u p a _)); [|discriminate].
    intros [= <-]. now rewrite Hw, Hf.
  - simpl. intros [= <-]. now split.
Qed.

(** X18. Construction with a username but neither a usable password nor a
    usable apikey always fails, with the "without password or apikey"
    exception, before any request is issued. *)
Theorem construction_needs_credential host u p k dbg n :
  u <> "" -> truthy (of_opt p) = false -> truthy (of_opt k) = false ->
  constructed (__init__ send host (Some u) p k dbg n) =
    Raise (LinkuriousException
             [Lit "could not authenticate without password or apikey"])
  /\ sent (snd (__init__ send host (Some u) p k dbg n)) = [].
Proof.
  intros Hu Hp Hk. unfold __init__, constructed, authenticate.
  rewrite (truthy_some _ Hu), Hp, Hk, !andb_false_r. now split.
Qed.

(** *** Sequences of calls *)

(** X19. After a login that succeeds, the next call goes out on the
    session the login left behind, from an object flagged authenticated,
    and the log holds the login request followed by that call's request. *)
Theorem login_then_call u p a st body n' (m : @M Session PyVal)
    (f : Root -> Request) :
  (forall st0,
     m st0 =
     (answer (fst (send (f (_wrapper (self st0))) (net st0))),
      {| self := self st0;
         net := snd (send (f (_wrapper (self st0))) (net st0));
         sent := sent st0 ++ [f (_wrapper (self st0))] |})) ->
  u <> "" -> p <> "" ->
  send (login_request (_wrapper (self st)) u (Some p)) (net st)
    = (inl body, n') ->
  getattr body "email" = Return (PStr u) ->
  (x <- authenticate send u (Some p) a ;; m) st =
  (answer (fst (send (f (_wrapper (self st))) n')),
   {| self := {| _wrapper := _wrapper (self st); authenticated := true |};
      net := snd (send (f (_wrapper (self st))) n');
      sent := sent st ++ [login_request (_wrapper (self st)) u (Some p);
                          f (_wrapper (self st))] |}).
Proof.
  intros Hm Hu Hp Hsend Hmail.
  destruct (getattr_dict _ _ _ Hmail) as (d & -> & Hd).
  unfold bind. rewrite (login_outcome u p a st _ n' Hu Hp Hsend).
  simpl. unfold dict_has. rewrite Hd. simpl. rewrite String.eqb_refl.
  rewrite Hm. simpl. now rewrite <- app_assoc.
Qed.

End Properties.

(* ================================================================= *)
(** ** The properties on concrete calls *)

(** C3 at a concrete call: the server answers the login with the account's
    email. *)
Lemma authenticate_success_witness :
  "pippo@openpolis.it" <> "" /\ "straw-H401-bliss" <> ""
  /\ authenticate (answering (PDict [("email", PStr "pippo@openpolis.it")]))
       "pippo@openpolis.it" (Some "straw-H401-bliss") None
       (fresh "https://linkurious.openpolis.io") =
     (Return tt,
      {| self := {| _wrapper := wrap "https://linkurious.openpolis.io/api" false;
                    authenticated := true |};
         net := tt;
         sent := [login_request (wrap "https://linkurious.openpolis.io/api" false)
                    "pippo@openpolis.it" (Some "straw-H401-bliss")] |}).
Proof.
  split; [discriminate|]. split; [discriminate|].
  apply (authenticate_success
           (answering (PDict [("email", PStr "pippo@openpolis.it")]))
           "pippo@openpolis.it" "straw-H401-bliss" None
           (fresh "https://linkurious.openpolis.io")
           (PDict [("email", PStr "pippo@openpolis.it")]) tt);
    [discriminate | discriminate | reflexivity | reflexivity].
Defined.

(** C4. A login by user name succeeds on the server, which answers with the
    account: its [email] differs from the user name and it has no [reason].
    [authenticate] then leaves through [AttributeError], raised while the
    message of the [LinkuriousException] is being formatted; the object is
    unchanged. *)
Theorem authenticate_reason_missing :
  authenticate
    (answering (PDict [("id", PInt 1); ("username", PStr "pippo");
                       ("email", PStr "pippo@openpolis.it")]))
    "pippo" (Some "straw-H401-bliss") None
    (fresh "https://linkurious.openpolis.io") =
  (Raise (AttributeError "reason"),
   {| self := new_object "https://linkurious.openpolis.io" false;
      net := tt;
      sent := [login_request (wrap "https://linkurious.openpolis.io/api" false)
                 "pippo" (Some "straw-H401-bliss")] |}).
Proof. reflexivity. Qed.

(** The same call when the response does carry a [reason]. *)
Example authenticate_rejected_example :
  authenticate (answering (PDict [("reason", PStr "Unauthorized")]))
    "pippo@openpolis.it" (Some "wrong") None
    (fresh "https://linkurious.openpolis.io") =
  (Raise (LinkuriousException
            [Lit "could not authenticate "; Fmt (PStr "Unauthorized")]),
   {| self := new_object "https://linkurious.openpolis.io" false;
      net := tt;
      sent := [login_request (wrap "https://linkurious.openpolis.io/api" false)
                 "pippo@openpolis.it" (Some "wrong")] |}).
Proof. reflexivity. Qed.

(** C5 at a concrete call. *)
Lemma authenticate_apikey_unsupported_witness :
  "pippo@openpolis.it" <> "" /\ truthy (of_opt None) = false /\ "k-123" <> ""
  /\ authenticate (answering PNone) "pippo@openpolis.it" None (Some "k-123")
       (fresh "https://linkurious.openpolis.io") =
     (Raise (LinkuriousException
               [Lit "apikey authentication not yet implemented"]),
      fresh "https://linkurious.openpolis.io").
Proof.
  split; [discriminate|]. split; [reflexivity|]. split; [discriminate|].
  apply (authenticate_apikey_unsupported (answering PNone)
           "pippo@openpolis.it" None "k-123"
           (fresh "https://linkurious.openpolis.io"));
    [discriminate | reflexivity | discriminate].
Defined.

(** C8 at a concrete call. *)
Lemma authenticate_no_credential_witness :
  truthy (of_opt None) = false
  /\ authenticate (answering PNone) "pippo@openpolis.it" None None
       (fresh "https://linkurious.openpolis.io") =
     (Raise (LinkuriousException
               [Lit "could not authenticate without password or apikey"]),
      fresh "https://linkurious.openpolis.io").
Proof.
  split; [reflexivity|].
  apply (authenticate_no_credential (answering PNone)
           "pippo@openpolis.it" None None
           (fresh "https://linkurious.openpolis.io"));
    reflexivity.
Defined.

(** C6 at a concrete construction. *)
Lemma construction_authenticates_witness :
  "pippo@openpolis.it" <> ""
  /\ __init__ (answering (PDict [("email", PStr "pippo@openpolis.it")]))
       "https://linkurious.openpolis.io" (Some "pippo@openpolis.it")
       (Some "straw-H401-bliss") None false tt =
     authenticate (answering (PDict [("email", PStr "pippo@openpolis.it")]))
       "pippo@openpolis.it" (Some "straw-H401-bliss") None
       (fresh "https://linkurious.openpolis.io").
Proof.
  split; [discriminate|].
  apply (construction_authenticates
           (answering (PDict [("email", PStr "pippo@openpolis.it")]))
           "https://linkurious.openpolis.io" "pippo@openpolis.it"
           (Some "straw-H401-bliss") None false tt).
  discriminate.
Defined.

(** C10 at [0]: [get_users(limit=0)] sends no [limit], and
    [update_config(path="p", configuration_value=0)] sends no
    [configuration]. *)
Lemma falsy_is_omitted_witness :
  truthy (PInt 0) = false
  /\ absent param "limit"
       (get_users (answering PNone) PNone PNone PNone (PInt 0) PNone PNone
          PNone)
  /\ absent field "configuration"
       (update_config (answering PNone) (PInt 0) (PStr "p") (PInt 0)
          (PBool false)).
Proof.
  split; [reflexivity|].
  pose proof (falsy_is_omitted (answering PNone) (PInt 0) eq_refl) as H.
  split.
  - apply (proj1 (proj2 (proj2 (proj2 H)))).
  - apply (proj1 (proj2 (proj2 (proj2 (proj2 (proj2 (proj2 (proj2 (proj2 H))))))))).
Defined.

(** C1 fails as stated: called without their optional arguments,
    [get_custom_files], [get_visualization] and [get_sources_status] build a
    query mapping that has the keys, bound to [None] and [False]. *)
Lemma omitted_parameters_still_sent :
  (map (param "root")
     (requests (get_custom_files (answering PNone) PNone PNone)
        (fresh "https://linkurious.openpolis.io")) = [Some PNone]
   /\ map (param "root")
        (requests (get_custom_files (answering PNone) PNone PNone)
           (fresh "https://linkurious.openpolis.io")) <> [None])
  /\ (map (param "withDigest")
        (requests (get_visualization (answering PNone) "s1" 5
                     (PBool false) (PBool false))
           (fresh "https://linkurious.openpolis.io")) = [Some (PBool false)]
      /\ map (param "withDigest")
           (requests (get_visualization (answering PNone) "s1" 5
                        (PBool false) (PBool false))
              (fresh "https://linkurious.openpolis.io")) <> [None])
  /\ (map (param "with_styles")
        (requests (get_sources_status (answering PNone)
                     (PBool false) (PBool false))
           (fresh "https://linkurious.openpolis.io")) = [Some (PBool false)]
      /\ map (param "with_styles")
           (requests (get_sources_status (answering PNone)
                        (PBool false) (PBool false))
              (fresh "https://linkurious.openpolis.io")) <> [None]).
Proof. repeat split; try reflexivity; discriminate. Qed.

(** C2 fails as stated: [get_sources_status(with_styles=False)] places the
    boolean [False] in the mapping, not the integer [0]. *)
Lemma get_sources_status_false_stays_bool :
  map (param "with_styles")
    (requests (get_sources_status (answering PNone)
                 (PBool false) (PBool false))
       (fresh "https://linkurious.openpolis.io")) = [Some (PBool false)]
  /\ map (param "with_styles")
       (requests (get_sources_status (answering PNone)
                    (PBool false) (PBool false))
          (fresh "https://linkurious.openpolis.io")) <> [Some (PInt 0)].
Proof. split; [reflexivity | discriminate]. Qed.

(** X1 at a concrete call. *)
Lemma authenticate_returns_iff_witness :
  fst (authenticate (answering (PDict [("email", PStr "pippo@openpolis.it")]))
         "pippo@openpolis.it" (Some "straw-H401-bliss") None
         (fresh "https://linkurious.openpolis.io")) = Return tt
  <-> getattr (PDict [("email", PStr "pippo@openpolis.it")]) "email"
      = Return (PStr "pippo@openpolis.it").
Proof.
  apply (authenticate_returns_iff
           (answering (PDict [("email", PStr "pippo@openpolis.it")]))
           "pippo@openpolis.it" "straw-H401-bliss" None
           (fresh "https://linkurious.openpolis.io")
           (PDict [("email", PStr "pippo@openpolis.it")]) tt);
    [discriminate | discriminate | reflexivity].
Defined.

(** X5 at a concrete call. *)
Lemma authenticate_password_first_witness :
  "straw-H401-bliss" <> ""
  /\ authenticate (answering PNone) "pippo@openpolis.it"
       (Some "straw-H401-bliss") (Some "k-123")
       (fresh "https://linkurious.openpolis.io") =
     authenticate (answering PNone) "pippo@openpolis.it"
       (Some "straw-H401-bliss") None
       (fresh "https://linkurious.openpolis.io").
Proof.
  split; [discriminate|].
  apply (authenticate_password_first (answering PNone) "pippo@openpolis.it"
           "straw-H401-bliss" "k-123"
           (fresh "https://linkurious.openpolis.io")).
  discriminate.
Defined.

(** X7 at a concrete call: the transport fails the login. *)
Lemma authenticate_transport_error_witness :
  authenticate (failing "401 Client Error: Unauthorized")
    "pippo@openpolis.it" (Some "wrong") None
    (fresh "https://linkurious.openpolis.io") =
  (Raise (TransportError "401 Client Error: Unauthorized"),
   {| self := new_object "https://linkurious.openpolis.io" false;
      net := tt;
      sent := [login_request (wrap "https://linkurious.openpolis.io/api" false)
                 "pippo@openpolis.it" (Some "wrong")] |}).
Proof.
  apply (authenticate_transport_error
           (failing "401 Client Error: Unauthorized")
           "pippo@openpolis.it" "wrong" None
           (fresh "https://linkurious.openpolis.io")
           "401 Client Error: Unauthorized" tt);
    [discriminate | discriminate | reflexivity].
Defined.

(** X8 at a concrete call: the login answers with a bare string. *)
Lemma authenticate_not_a_bunch_witness :
  fst (authenticate (answering (PStr "No response"))
         "pippo@openpolis.it" (Some "straw-H401-bliss") None
         (fresh "https://linkurious.openpolis.io")) =
    Raise (AttributeError "reason")
  /\ self (snd (authenticate (answering (PStr "No response"))
                  "pippo@openpolis.it" (Some "straw-H401-bliss") None
                  (fresh "https://linkurious.openpolis.io"))) =
     new_object "https://linkurious.openpolis.io" false.
Proof.
  apply (authenticate_not_a_bunch (answering (PStr "No response"))
           "pippo@openpolis.it" "straw-H401-bliss" None
           (fresh "https://linkurious.openpolis.io")
           (PStr "No response") tt);
    [discriminate | discriminate | reflexivity | discriminate].
Defined.

(** X12 at [25]: [get_users(limit=25)] sends [limit: 25]. *)
Lemma truthy_is_forwarded_witness :
  truthy (PInt 25) = true
  /\ carries param "limit" (PInt 25)
       (get_users (answering PNone) PNone PNone PNone (PInt 25) PNone PNone
          PNone).
Proof.
  split; [reflexivity|].
  pose proof (truthy_is_forwarded (answering PNone) (PInt 25) eq_refl) as H.
  apply (proj1 (proj2 (proj2 (proj2 H)))).
Defined.

(** X16 at two ids. *)
Lemma visualization_paths_differ_witness :
  map path (requests (delete_visualization (answering PNone) "s1" 5)
              (fresh "https://linkurious.openpolis.io"))
  <> map path (requests (delete_visualization (answering PNone) "s1" 9)
                 (fresh "https://linkurious.openpolis.io")).
Proof.
  apply (visualization_paths_differ (answering PNone) "s1" 5%Z 9%Z
           (fresh "https://linkurious.openpolis.io")).
  discriminate.
Defined.

(** X17 at a concrete construction. *)
Lemma construction_result_witness :
  _wrapper {| _wrapper := wrap "https://linkurious.openpolis.io/api" false;
              authenticated := true |}
    = wrap ("https://linkurious.openpolis.io" ++ "/api") false
  /\ authenticated
       {| _wrapper := wrap "https://linkurious.openpolis.io/api" false;
          authenticated := true |}
     = truthy (of_opt (Some "pippo@openpolis.it")).
Proof.
  apply (construction_result
           (answering (PDict [("email", PStr "pippo@openpolis.it")]))
           "https://linkurious.openpolis.io" (Some "pippo@openpolis.it")
           (Some "straw-H401-bliss") None false tt).
  reflexivity.
Defined.

(** X18 at a concrete construction. *)
Lemma construction_needs_credential_witness :
  constructed (__init__ (answering PNone) "https://linkurious.openpolis.io"
                 (Some "pippo@openpolis.it") None None false tt) =
    Raise (LinkuriousException
             [Lit "could not authenticate without password or apikey"])
  /\ sent (snd (__init__ (answering PNone) "https://linkurious.openpolis.io"
                  (Some "pippo@openpolis.it") None None false tt)) = [].
Proof.
  apply (construction_needs_credential (answering PNone)
           "https://linkurious.openpolis.io" "pippo@openpolis.it" None None
           false tt);
    [discriminate | reflexivity | reflexivity].
Defined.

(** X19 at a concrete sequence: login, then [status]. *)
Lemma login_then_call_witness :
  (x <- authenticate
          (answering (PDict [("email", PStr "pippo@openpolis.it")]))
          "pippo@openpolis.it" (Some "straw-H401-bliss") None ;;
   status (answering (PDict [("email", PStr "pippo@openpolis.it")])))
    (fresh "https://linkurious.openpolis.io") =
  (Return (PDict [("email", PStr "pippo@openpolis.it")]),
   {| self := {| _wrapper := wrap "https://linkurious.openpolis.io/api" false;
                 authenticated := true |};
      net := tt;
      sent := [login_request (wrap "https://linkurious.openpolis.io/api" false)
                 "pippo@openpolis.it" (Some "straw-H401-bliss");
               {| verb := GET; base := "https://linkurious.openpolis.io/api";
                  parts := ["status"]; params := None; data := None |}] |}).
Proof.
  apply (login_then_call
           (answering (PDict [("email", PStr "pippo@openpolis.it")]))
           "pippo@openpolis.it" "straw-H401-bliss" None
           (fresh "https://linkurious.openpolis.io")
           (PDict [("email", PStr "pippo@openpolis.it")]) tt
           (status (answering (PDict [("email", PStr "pippo@openpolis.it")])))
           (fun w => request_of GET (w ./ "status") [] None None));
    [intros st0; reflexivity | discriminate | discriminate
    | reflexivity | reflexivity].
Defined.
